(** * pythrun-test.py: the stream fixture, as a trace of library calls

    The script prints four sets of lines on [sys.stdout] and [sys.stderr],
    sleeping between them, and leaves through [sys.exit(42)].  It is embedded
    here as a program of a small state-and-exception monad: the state is the
    world the process runs in (its arguments, its environment, its input and
    the log of the calls made so far), the one exception is Python's
    [SystemExit].

    Calls are logged as the source makes them: one [Print] per [print(...)],
    one [Write] per [file.write(...)], one [Flush] per [file.flush()], one
    [Sleep] per [time.sleep(...)].  Every call returns: the source has no
    handler for a failed write, and what the interpreter does with a stream
    that was closed under it is not part of the program text.  Durations are
    in milliseconds ([time.sleep(0.2)] is [sleep 200]). *)

From Stdlib Require Import ZArith List Sorted String Ascii Bool Lia DecimalString.
From Stdlib Require Import DecimalPos DecimalZ.
Import ListNotations.

Local Open Scope Z_scope.
Local Open Scope string_scope.
Local Open Scope list_scope.

(** ** The world *)

(** [sys.stdout] and [sys.stderr]. *)
Inductive stream : Type := stdout | stderr.

Definition stream_eqb (f g : stream) : bool :=
  match f, g with
  | stdout, stdout | stderr, stderr => true
  | _, _ => false
  end.

Inductive event : Type :=
| Print (file : stream) (s : string)   (* print(s, file=file) *)
| Write (file : stream) (s : string)   (* file.write(s) *)
| Flush (file : stream)                (* file.flush() *)
| Sleep (ms : Z).                      (* time.sleep(ms / 1000) *)

(** What a process is started with, and what it has done.  [log] holds the
    calls made so far, the newest first: a call conses onto it. *)
Record world : Type := mkWorld {
  argv : list string;
  environ : list (string * string);
  stdin : string;
  log : list event
}.

Definition record (e : event) (w : world) : world :=
  {| argv := argv w; environ := environ w; stdin := stdin w;
     log := e :: log w |}.

(** The log in the order of emission. *)
Definition trace (w : world) : list event := rev (log w).

(** A freshly started process with nothing behind it. *)
Definition boot : world :=
  {| argv := []; environ := []; stdin := ""; log := [] |}.

(** ** The monad *)

Inductive exn : Type := SystemExit (code : Z).

Inductive result (A : Type) : Type :=
| Ret (a : A)
| Raise (e : exn).
Arguments Ret {A} a.
Arguments Raise {A} e.

Definition M (A : Type) : Type := world -> result A * world.

Definition ret {A : Type} (a : A) : M A := fun w => (Ret a, w).

Definition bind {A B : Type} (m : M A) (k : A -> M B) : M B :=
  fun w =>
    match m w with
    | (Ret a, w') => k a w'
    | (Raise e, w') => (Raise e, w')
    end.

Definition raise {A : Type} (e : exn) : M A := fun w => (Raise e, w).

Definition emit (e : event) : M unit := fun w => (Ret tt, record e w).

Notation "x <- m ;; k" := (bind m (fun x => k))
  (at level 61, m at next level, right associativity).
Notation "m ;; k" := (bind m (fun _ => k))
  (at level 61, right associativity).

(** ** The library calls of the script *)

(** The line feed, ["\n"]. *)
Definition LF : string := String "010"%char EmptyString.

Definition print (s : string) (file : stream) : M unit := emit (Print file s).

(** [file.write(s)] returns the number of characters written. *)
Definition write (file : stream) (s : string) : M Z :=
  emit (Write file s) ;; ret (Z.of_nat (String.length s)).

Definition flush (file : stream) : M unit := emit (Flush file).

Definition sleep (ms : Z) : M unit := emit (Sleep ms).

Definition sys_exit (code : Z) : M unit := raise (SystemExit code).

(** [range(start, stop)]. *)
Definition range (start stop : Z) : list Z :=
  map (fun k => start + Z.of_nat k) (seq 0 (Z.to_nat (stop - start))).

(** [str(i)] of an integer, which is what [{i}] in an f-string inserts. *)
Definition str (i : Z) : string := NilZero.string_of_int (Z.to_int i).

(** Iterating a string yields its characters, each a string of length one. *)
Fixpoint chars (s : string) : list string :=
  match s with
  | EmptyString => []
  | String c s' => String c EmptyString :: chars s'
  end.

(** [for x in xs: body]. *)
Fixpoint for_each {A : Type} (xs : list A) (body : A -> M unit) : M unit :=
  match xs with
  | [] => ret tt
  | x :: xs' => body x ;; for_each xs' body
  end.

(** ** The script *)

Definition main : M unit :=
  (* First set: 5 lines of stdout *)
  print "Expected: 5 lines of stdout - 1st set" stdout ;;
  for_each (range 1 6) (fun i =>
    print ("stdout: Line " ++ str i) stdout ;;
    sleep 200) ;;
  (* Second set: 5 lines of stderr *)
  print "Expected: 5 lines of stderr - 2nd set" stderr ;;
  for_each (range 1 6) (fun i =>
    print ("stderr: Line " ++ str i) stderr ;;
    sleep 200) ;;
  (* Third set: 5 interleaved lines of stdout and stderr *)
  print "Expected: 5 interleaved lines of stdout and stderr - 3rd set" stdout ;;
  for_each (range 1 6) (fun i =>
    print ("stdout: Interleaved Line " ++ str i) stdout ;;
    print ("stderr: Interleaved Line " ++ str i) stderr ;;
    sleep 100) ;;
  (* Fourth set: Character by character output with pauses *)
  print "Expected: Character by character output with pauses - 4th set" stdout ;;
  for_each (chars ("stdout: Character output" ++ LF)) (fun char =>
    write stdout char ;;
    flush stdout ;;
    sleep 50) ;;
  for_each (chars ("stderr: Character output" ++ LF)) (fun char =>
    write stderr char ;;
    flush stderr ;;
    sleep 50) ;;
  print "Exiting with code 42" stdout ;;
  sys_exit 42.

(** [if __name__ == "__main__": main()]. *)
Definition module_body (name : string) : M unit :=
  if String.eqb name "__main__" then main else ret tt.

(** ** The process *)

(** The status the interpreter leaves with: the code of an uncaught
    [SystemExit], zero when the module body returns. *)
Definition exit_status {A : Type} (r : result A) : Z :=
  match r with
  | Ret _ => 0
  | Raise (SystemExit code) => code
  end.

(** Running the file as a script. *)
Definition run_script (w : world) : Z * world :=
  let (r, w') := module_body "__main__" w in (exit_status r, w').

(** The calls a program adds to the log of the world it is started in. *)
Definition new_events {A : Type} (p : M A) (w : world) : list event :=
  skipn (List.length (trace w)) (trace (snd (p w))).

(** The calls one run of the script adds to the log it was started with. *)
Definition run_events (w : world) : list event :=
  skipn (List.length (trace w)) (trace (snd (run_script w))).

(** ** What a reader of the streams sees *)

(** The text one call puts on [f]: [print] adds the line feed, [write] adds
    nothing, and a call on the other stream, a flush or a sleep puts nothing
    on [f]. *)
Definition text_on (f : stream) (e : event) : string :=
  match e with
  | Print g s => if stream_eqb f g then s ++ LF else ""
  | Write g s => if stream_eqb f g then s else ""
  | Flush _ | Sleep _ => ""
  end.

(** Strings put end to end. *)
Definition join (ss : list string) : string := fold_right String.append "" ss.

(** Everything the calls of [evs] put on [f], end to end. *)
Definition content (f : stream) (evs : list event) : string :=
  join (map (text_on f) evs).

(** The strings handed to [f.write], in order. *)
Definition written (f : stream) (evs : list event) : list string :=
  flat_map (fun e => match e with
                     | Write g s => if stream_eqb f g then [s] else []
                     | _ => []
                     end) evs.

(** Every [write] of [evs] hands over a single character and is followed at
    once by a [flush] of the same stream. *)
Fixpoint flushed_char_writes (evs : list event) : bool :=
  match evs with
  | [] => true
  | Write f s :: rest =>
      match rest with
      | Flush g :: _ =>
          Nat.eqb (String.length s) 1 && stream_eqb f g
          && flushed_char_writes rest
      | _ => false
      end
  | _ :: rest => flushed_char_writes rest
  end.

Definition is_output (e : event) : bool :=
  match e with
  | Print _ _ | Write _ _ => true
  | Flush _ | Sleep _ => false
  end.

Definition is_write (e : event) : bool :=
  match e with
  | Write _ _ => true
  | _ => false
  end.

Definition file_of (e : event) : option stream :=
  match e with
  | Print f _ | Write f _ | Flush f => Some f
  | Sleep _ => None
  end.

Definition event_eqb (e1 e2 : event) : bool :=
  match e1, e2 with
  | Print f s, Print g t | Write f s, Write g t =>
      stream_eqb f g && String.eqb s t
  | Flush f, Flush g => stream_eqb f g
  | Sleep a, Sleep b => Z.eqb a b
  | _, _ => false
  end.

(** Whether the call [e] is among [evs]. *)
Definition occurs (e : event) (evs : list event) : bool :=
  existsb (event_eqb e) evs.

(** The [print] and [write] calls made on [f], in order. *)
Definition calls_on (f : stream) (evs : list event) : list event :=
  filter (fun e =>
            is_output e &&
            match file_of e with Some g => stream_eqb f g | None => false end)
         evs.

(** Cuts a text at its line feeds: the lines that are terminated, without
    their line feed, and what follows the last line feed.  [cur] is the
    beginning of the line being read. *)
Fixpoint lines_from (cur s : string) : list string * string :=
  match s with
  | EmptyString => ([], cur)
  | String c s' =>
      if Ascii.eqb c "010"%char
      then let (ls, rest) := lines_from "" s' in (cur :: ls, rest)
      else lines_from (cur ++ String c EmptyString) s'
  end.

Definition split_lines (s : string) : list string * string := lines_from "" s.

(** The number of newline-terminated lines the calls of [evs] put on [f]. *)
Definition line_count (f : stream) (evs : list event) : nat :=
  List.length (fst (split_lines (content f evs))).

(** The text of a list of lines, each closed by a line feed. *)
Definition unlines (ls : list string) : string :=
  join (map (fun l => (l ++ LF)%string) ls).

(** Whether a string is free of line feeds. *)
Fixpoint no_lf (s : string) : bool :=
  match s with
  | EmptyString => true
  | String c s' => negb (Ascii.eqb c "010"%char) && no_lf s'
  end.

(** ** Time, flushes and labels *)

(** The time the calls of [evs] spend asleep, in milliseconds. *)
Definition slept (evs : list event) : Z :=
  fold_right (fun e acc => match e with Sleep ms => ms + acc | _ => acc end)
             0 evs.

Definition is_sleep (e : event) : bool :=
  match e with
  | Sleep _ => true
  | _ => false
  end.

Definition is_flush (e : event) : bool :=
  match e with
  | Flush _ => true
  | _ => false
  end.

Definition is_print (e : event) : bool :=
  match e with
  | Print _ _ => true
  | _ => false
  end.

(** The complete lines the calls of [evs] put on [f]. *)
Definition lines_on (f : stream) (evs : list event) : list string :=
  fst (split_lines (content f evs)).

(** Whether no string of the list occurs in it twice. *)
Fixpoint distinct (ss : list string) : bool :=
  match ss with
  | [] => true
  | s :: rest => negb (existsb (String.eqb s) rest) && distinct rest
  end.

(** ** Programs and the calls they make *)

(** [w] with the calls [evs] made after it. *)
Definition extend (w : world) (evs : list event) : world :=
  {| argv := argv w; environ := environ w; stdin := stdin w;
     log := rev evs ++ log w |}.

(** [p] makes the calls [evs] and ends in [r], whatever world it starts in. *)
Definition emits {A : Type} (p : M A) (evs : list event) (r : result A) : Prop :=
  forall w, p w = (r, extend w evs).

(** The calls of the script, set by set. *)
Definition script_trace : list event :=
  [Print stdout "Expected: 5 lines of stdout - 1st set"]
  ++ flat_map (fun i => [Print stdout ("stdout: Line " ++ str i); Sleep 200])
       (range 1 6)
  ++ [Print stderr "Expected: 5 lines of stderr - 2nd set"]
  ++ flat_map (fun i => [Print stderr ("stderr: Line " ++ str i); Sleep 200])
       (range 1 6)
  ++ [Print stdout "Expected: 5 interleaved lines of stdout and stderr - 3rd set"]
  ++ flat_map (fun i => [Print stdout ("stdout: Interleaved Line " ++ str i);
                         Print stderr ("stderr: Interleaved Line " ++ str i);
                         Sleep 100])
       (range 1 6)
  ++ [Print stdout "Expected: Character by character output with pauses - 4th set"]
  ++ flat_map (fun c => [Write stdout c; Flush stdout; Sleep 50])
       (chars ("stdout: Character output" ++ LF))
  ++ flat_map (fun c => [Write stderr c; Flush stderr; Sleep 50])
       (chars ("stderr: Character output" ++ LF))
  ++ [Print stdout "Exiting with code 42"].

(** ** The script with whole-string writes *)

(** Follows the claim's words, not the source: the script as it would be if
    each string of the fourth set were handed over in one [write]. *)
Definition main_one_write : M unit :=
  print "Expected: 5 lines of stdout - 1st set" stdout ;;
  for_each (range 1 6) (fun i =>
    print ("stdout: Line " ++ str i) stdout ;;
    sleep 200) ;;
  print "Expected: 5 lines of stderr - 2nd set" stderr ;;
  for_each (range 1 6) (fun i =>
    print ("stderr: Line " ++ str i) stderr ;;
    sleep 200) ;;
  print "Expected: 5 interleaved lines of stdout and stderr - 3rd set" stdout ;;
  for_each (range 1 6) (fun i =>
    print ("stdout: Interleaved Line " ++ str i) stdout ;;
    print ("stderr: Interleaved Line " ++ str i) stderr ;;
    sleep 100) ;;
  print "Expected: Character by character output with pauses - 4th set" stdout ;;
  write stdout ("stdout: Character output" ++ LF) ;;
  write stderr ("stderr: Character output" ++ LF) ;;
  print "Exiting with code 42" stdout ;;
  sys_exit 42.

(** ** The script as a machine of control points *)

Module Sequencer.

(** Where control stands in [main]: before the header of a set, before a
    turn of a loop with the value the loop variable has in that turn (the
    index into the string, for the two loops of the fourth set), before the
    last [print], before [sys.exit]. *)
Inductive point : Type :=
| Header1
| Loop1 (i : Z)
| Header2
| Loop2 (i : Z)
| Header3
| Loop3 (i : Z)
| Header4
| CharsOut (k : nat)
| CharsErr (k : nat)
| Farewell
| Leave.

Inductive outcome : Type :=
| Goes (evs : list event) (next : point)
| Exits (code : Z).

(** The turn after the one for [i] in [for i in range(start, stop)], or
    [done] when the range is used up. *)
Definition next_turn (loop : Z -> point) (i stop : Z) (done : point) : point :=
  if Z.ltb (i + 1) stop then loop (i + 1) else done.

(** One turn of a loop over the characters of [s]. *)
Definition char_turn (file : stream) (s : string) (loop : nat -> point)
    (k : nat) (done : point) : outcome :=
  match nth_error (chars s) k with
  | Some char =>
      Goes [Write file char; Flush file; Sleep 50]
           (if Nat.ltb (S k) (String.length s) then loop (S k) else done)
  | None => Goes [] done
  end.

Definition step (pt : point) : outcome :=
  match pt with
  | Header1 =>
      Goes [Print stdout "Expected: 5 lines of stdout - 1st set"] (Loop1 1)
  | Loop1 i =>
      Goes [Print stdout ("stdout: Line " ++ str i); Sleep 200]
           (next_turn Loop1 i 6 Header2)
  | Header2 =>
      Goes [Print stderr "Expected: 5 lines of stderr - 2nd set"] (Loop2 1)
  | Loop2 i =>
      Goes [Print stderr ("stderr: Line " ++ str i); Sleep 200]
           (next_turn Loop2 i 6 Header3)
  | Header3 =>
      Goes [Print stdout
              "Expected: 5 interleaved lines of stdout and stderr - 3rd set"]
           (Loop3 1)
  | Loop3 i =>
      Goes [Print stdout ("stdout: Interleaved Line " ++ str i);
            Print stderr ("stderr: Interleaved Line " ++ str i);
            Sleep 100]
           (next_turn Loop3 i 6 Header4)
  | Header4 =>
      Goes [Print stdout
              "Expected: Character by character output with pauses - 4th set"]
           (CharsOut 0)
  | CharsOut k =>
      char_turn stdout ("stdout: Character output" ++ LF) CharsOut k
        (CharsErr 0)
  | CharsErr k =>
      char_turn stderr ("stderr: Character output" ++ LF) CharsErr k
        Farewell
  | Farewell => Goes [Print stdout "Exiting with code 42"] Leave
  | Leave => Exits 42
  end.

(** The calls made and the exit status reached from [pt] in at most [fuel]
    steps; no status when the fuel runs out first. *)
Fixpoint run (fuel : nat) (pt : point) : list event * option Z :=
  match fuel with
  | O => ([], None)
  | S fuel' =>
      match step pt with
      | Goes evs next =>
          let (rest, status) := run fuel' next in (evs ++ rest, status)
      | Exits code => ([], Some code)
      end
  end.

(** The points control passes through from [pt]. *)
Fixpoint path (fuel : nat) (pt : point) : list point :=
  match fuel with
  | O => []
  | S fuel' =>
      pt :: match step pt with
            | Goes _ next => path fuel' next
            | Exits _ => []
            end
  end.

(** The phase a point belongs to: the four sets, then 5 for the exit. *)
Definition phase (pt : point) : Z :=
  match pt with
  | Header1 | Loop1 _ => 1
  | Header2 | Loop2 _ => 2
  | Header3 | Loop3 _ => 3
  | Header4 | CharsOut _ | CharsErr _ => 4
  | Farewell | Leave => 5
  end.

(** The part of its phase a point is in: the header, the loop, and in the
    fourth set the second loop. *)
Definition part (pt : point) : Z :=
  match pt with
  | Header1 | Header2 | Header3 | Header4 | Farewell => 0
  | Loop1 _ | Loop2 _ | Loop3 _ | CharsOut _ | Leave => 1
  | CharsErr _ => 2
  end.

(** The line counter of a loop of the first three sets, the character
    cursor of a loop of the fourth. *)
Definition counter (pt : point) : Z :=
  match pt with
  | Loop1 i | Loop2 i | Loop3 i => i
  | CharsOut k | CharsErr k => Z.of_nat k
  | _ => 0
  end.

(** [a] comes strictly earlier than [b]: in an earlier phase, or in the
    same phase in an earlier part, or in the same loop at a smaller counter. *)
Definition earlier (a b : point) : Prop :=
  phase a < phase b \/
  (phase a = phase b /\
   (part a < part b \/ (part a = part b /\ counter a < counter b))).

(** The phases of a path, each named once, in the order they are entered. *)
Fixpoint phases_entered (last : Z) (pts : list point) : list Z :=
  match pts with
  | [] => []
  | pt :: rest =>
      if Z.eqb (phase pt) last then phases_entered last rest
      else phase pt :: phases_entered (phase pt) rest
  end.

End Sequencer.

(** * Lemmas *)

Lemma extend_nil (w : world) : extend w [] = w.
Proof. destruct w; reflexivity. Qed.

Lemma extend_app (w : world) (e1 e2 : list event) :
  extend (extend w e1) e2 = extend w (e1 ++ e2).
Proof.
  unfold extend; cbn [argv environ stdin log].
  now rewrite rev_app_distr, app_assoc.
Qed.

Lemma trace_extend (w : world) (evs : list event) :
  trace (extend w evs) = trace w ++ evs.
Proof.
  unfold trace, extend; cbn [log].
  now rewrite rev_app_distr, rev_involutive.
Qed.

Lemma emits_ret {A : Type} (a : A) : emits (ret a) [] (Ret a).
Proof. intros w. unfold ret. now rewrite extend_nil. Qed.

Lemma emits_emit (e : event) : emits (emit e) [e] (Ret tt).
Proof. intros w. reflexivity. Qed.

Lemma emits_raise {A : Type} (e : exn) : emits (@raise A e) [] (Raise e).
Proof. intros w. unfold raise. now rewrite extend_nil. Qed.

Lemma emits_bind {A B : Type} (m : M A) (k : A -> M B) a e1 e2 r :
  emits m e1 (Ret a) -> emits (k a) e2 r -> emits (bind m k) (e1 ++ e2) r.
Proof.
  intros Hm Hk w. unfold bind. rewrite Hm, Hk. now rewrite extend_app.
Qed.

Lemma emits_for_each {A : Type} (body : A -> M unit) (f : A -> list event) :
  (forall x, emits (body x) (f x) (Ret tt)) ->
  forall xs, emits (for_each xs body) (flat_map f xs) (Ret tt).
Proof.
  intros Hbody xs. induction xs as [|x xs IH]; cbn [for_each flat_map].
  - apply emits_ret.
  - eapply emits_bind; [apply Hbody | exact IH].
Qed.

Lemma emits_print (s : string) (f : stream) :
  emits (print s f) [Print f s] (Ret tt).
Proof. apply emits_emit. Qed.

Lemma emits_write (f : stream) (s : string) :
  emits (write f s) [Write f s] (Ret (Z.of_nat (String.length s))).
Proof.
  unfold write.
  change [Write f s] with ([Write f s] ++ []).
  eapply emits_bind; [apply emits_emit | apply emits_ret].
Qed.

Lemma emits_flush (f : stream) : emits (flush f) [Flush f] (Ret tt).
Proof. apply emits_emit. Qed.

Lemma emits_sleep (ms : Z) : emits (sleep ms) [Sleep ms] (Ret tt).
Proof. apply emits_emit. Qed.

Lemma emits_sys_exit (code : Z) :
  emits (sys_exit code) [] (Raise (SystemExit code)).
Proof. apply emits_raise. Qed.

(** One turn of a loop of the fourth set, for any stream and character. *)
Lemma emits_char_turn (f : stream) (c : string) :
  emits (write f c ;; flush f ;; sleep 50)
        [Write f c; Flush f; Sleep 50] (Ret tt).
Proof.
  change [Write f c; Flush f; Sleep 50]
    with ([Write f c] ++ [Flush f] ++ [Sleep 50]).
  eapply emits_bind; [apply emits_write|].
  eapply emits_bind; [apply emits_flush | apply emits_sleep].
Qed.

(** A loop of the fourth set over any string. *)
Lemma emits_char_loop (f : stream) (s : string) :
  emits (for_each (chars s) (fun char => write f char ;; flush f ;; sleep 50))
        (flat_map (fun c => [Write f c; Flush f; Sleep 50]) (chars s))
        (Ret tt).
Proof. apply emits_for_each. intros c. apply emits_char_turn. Qed.

Lemma main_emits : emits main script_trace (Raise (SystemExit 42)).
Proof.
  unfold main, script_trace.
  eapply emits_bind; [apply emits_print|].
  eapply emits_bind.
  { apply emits_for_each with
      (f := fun i => [Print stdout ("stdout: Line " ++ str i); Sleep 200]).
    intros i. change [Print stdout ("stdout: Line " ++ str i); Sleep 200]
      with ([Print stdout ("stdout: Line " ++ str i)] ++ [Sleep 200]).
    eapply emits_bind; [apply emits_print | apply emits_sleep]. }
  eapply emits_bind; [apply emits_print|].
  eapply emits_bind.
  { apply emits_for_each with
      (f := fun i => [Print stderr ("stderr: Line " ++ str i); Sleep 200]).
    intros i. change [Print stderr ("stderr: Line " ++ str i); Sleep 200]
      with ([Print stderr ("stderr: Line " ++ str i)] ++ [Sleep 200]).
    eapply emits_bind; [apply emits_print | apply emits_sleep]. }
  eapply emits_bind; [apply emits_print|].
  eapply emits_bind.
  { apply emits_for_each with
      (f := fun i => [Print stdout ("stdout: Interleaved Line " ++ str i);
                      Print stderr ("stderr: Interleaved Line " ++ str i);
                      Sleep 100]).
    intros i.
    change [Print stdout ("stdout: Interleaved Line " ++ str i);
            Print stderr ("stderr: Interleaved Line " ++ str i); Sleep 100]
      with ([Print stdout ("stdout: Interleaved Line " ++ str i)]
            ++ [Print stderr ("stderr: Interleaved Line " ++ str i)]
            ++ [Sleep 100]).
    eapply emits_bind; [apply emits_print|].
    eapply emits_bind; [apply emits_print | apply emits_sleep]. }
  eapply emits_bind; [apply emits_print|].
  eapply emits_bind; [apply emits_char_loop|].
  eapply emits_bind; [apply emits_char_loop|].
  rewrite <- (app_nil_r [Print stdout "Exiting with code 42"]).
  eapply emits_bind; [apply emits_print | apply emits_sys_exit].
Qed.

Lemma new_events_emits {A : Type} (p : M A) evs r (w : world) :
  emits p evs r -> new_events p w = evs.
Proof.
  intros Hp. unfold new_events. rewrite Hp. cbn [snd].
  rewrite trace_extend, skipn_app, skipn_all, Nat.sub_diag.
  reflexivity.
Qed.

Lemma run_script_spec (w : world) :
  run_script w = (42, extend w script_trace).
Proof.
  unfold run_script, module_body. cbn [String.eqb].
  change (String.eqb "__main__" "__main__") with true. cbv iota.
  now rewrite main_emits.
Qed.

Lemma run_events_spec (w : world) : run_events w = script_trace.
Proof.
  unfold run_events. rewrite run_script_spec. cbn [snd].
  rewrite trace_extend. rewrite skipn_app, skipn_all, Nat.sub_diag.
  reflexivity.
Qed.

Lemma append_empty_r (s : string) : (s ++ "")%string = s.
Proof. induction s as [|c s IH]; cbn; [reflexivity | now rewrite IH]. Qed.

Lemma append_assoc (a b c : string) :
  ((a ++ b) ++ c)%string = (a ++ (b ++ c))%string.
Proof. induction a as [|x a IH]; cbn; [reflexivity | now rewrite IH]. Qed.

Lemma join_app (xs ys : list string) :
  join (xs ++ ys) = (join xs ++ join ys)%string.
Proof.
  induction xs as [|x xs IH]; cbn; [reflexivity|].
  fold (join (xs ++ ys)) (join xs). now rewrite IH, append_assoc.
Qed.

Lemma join_chars (s : string) : join (chars s) = s.
Proof.
  induction s as [|c s IH]; cbn; [reflexivity|].
  fold (join (chars s)). now rewrite IH.
Qed.

Lemma stream_eqb_eq (f g : stream) : stream_eqb f g = true <-> f = g.
Proof. destruct f, g; cbn; split; congruence. Qed.

Lemma event_eqb_eq (e1 e2 : event) : event_eqb e1 e2 = true <-> e1 = e2.
Proof.
  destruct e1, e2; cbn [event_eqb];
    rewrite ?andb_true_iff, ?stream_eqb_eq, ?String.eqb_eq, ?Z.eqb_eq;
    split; try congruence; try (intros [-> ->]; reflexivity);
    intros [= -> ->]; auto.
Qed.

Lemma occurs_In (e : event) (evs : list event) :
  occurs e evs = true <-> In e evs.
Proof.
  unfold occurs. rewrite existsb_exists. split.
  - intros [x [Hin Heq]]. apply event_eqb_eq in Heq. now subst.
  - intros Hin. exists e. split; [exact Hin | now apply event_eqb_eq].
Qed.

Lemma not_occurs_not_In (e : event) (evs : list event) :
  occurs e evs = false -> ~ In e evs.
Proof.
  intros Hocc Hin. apply occurs_In in Hin. congruence.
Qed.

Lemma trace_run_script (w : world) :
  trace (snd (run_script w)) = trace w ++ run_events w.
Proof.
  rewrite run_events_spec, run_script_spec. cbn [snd]. apply trace_extend.
Qed.

(** * The exit status *)

(** C1. Every run of the script ends with exit status 42, and it ends only
    after the final line was printed: in the world the process leaves, the last
    call of the log is the [print] of "Exiting with code 42" on standard
    output, which no earlier call of the run had printed.  (Every call of
    the model returns, which is the claim's premise that both streams stay
    writable.) *)
Theorem exit_42_after_final_line (w : world) :
  fst (run_script w) = 42 /\
  exists before,
    trace (snd (run_script w)) =
      trace w ++ before ++ [Print stdout "Exiting with code 42"] /\
    ~ In (Print stdout "Exiting with code 42") before.
Proof.
  split; [now rewrite run_script_spec|].
  exists (removelast script_trace).
  rewrite trace_run_script, run_events_spec. split.
  - f_equal.
  - apply not_occurs_not_In. vm_compute. reflexivity.
Qed.

(** * The two streams *)

(** C2. In every run the [print] and [write] calls made on standard output
    are, in order: the first header, "stdout: Line 1" to "stdout: Line 5", the
    third header, "stdout: Interleaved Line 1" to "stdout: Interleaved Line 5",
    the fourth header, the 25 characters of "stdout: Character output\n" one
    [write] each, and "Exiting with code 42"; the bytes they put on the stream
    are those fifteen lines, each closed by a line feed; and [{i}] is the
    decimal numeral of [i] with no leading zero. *)
Theorem stdout_sequence (w : world) :
  calls_on stdout (run_events w) =
    [Print stdout "Expected: 5 lines of stdout - 1st set";
     Print stdout "stdout: Line 1";
     Print stdout "stdout: Line 2";
     Print stdout "stdout: Line 3";
     Print stdout "stdout: Line 4";
     Print stdout "stdout: Line 5";
     Print stdout "Expected: 5 interleaved lines of stdout and stderr - 3rd set";
     Print stdout "stdout: Interleaved Line 1";
     Print stdout "stdout: Interleaved Line 2";
     Print stdout "stdout: Interleaved Line 3";
     Print stdout "stdout: Interleaved Line 4";
     Print stdout "stdout: Interleaved Line 5";
     Print stdout "Expected: Character by character output with pauses - 4th set"]
    ++ map (Write stdout)
         ["s"; "t"; "d"; "o"; "u"; "t"; ":"; " ";
          "C"; "h"; "a"; "r"; "a"; "c"; "t"; "e"; "r"; " ";
          "o"; "u"; "t"; "p"; "u"; "t"; LF]
    ++ [Print stdout "Exiting with code 42"]
  /\ content stdout (run_events w) =
       unlines
         ["Expected: 5 lines of stdout - 1st set";
          "stdout: Line 1";
          "stdout: Line 2";
          "stdout: Line 3";
          "stdout: Line 4";
          "stdout: Line 5";
          "Expected: 5 interleaved lines of stdout and stderr - 3rd set";
          "stdout: Interleaved Line 1";
          "stdout: Interleaved Line 2";
          "stdout: Interleaved Line 3";
          "stdout: Interleaved Line 4";
          "stdout: Interleaved Line 5";
          "Expected: Character by character output with pauses - 4th set";
          "stdout: Character output";
          "Exiting with code 42"]
  /\ map str (range 1 6) = ["1"; "2"; "3"; "4"; "5"].
Proof.
  rewrite run_events_spec.
  split; [|split]; vm_compute; reflexivity.
Qed.

(** C3. In every run the [print] and [write] calls made on standard error
    are, in order: the second header, "stderr: Line 1" to "stderr: Line 5",
    "stderr: Interleaved Line 1" to "stderr: Interleaved Line 5", and the 25
    characters of "stderr: Character output\n" one [write] each; the bytes on
    the stream are those twelve lines and nothing else. *)
Theorem stderr_sequence (w : world) :
  calls_on stderr (run_events w) =
    [Print stderr "Expected: 5 lines of stderr - 2nd set";
     Print stderr "stderr: Line 1";
     Print stderr "stderr: Line 2";
     Print stderr "stderr: Line 3";
     Print stderr "stderr: Line 4";
     Print stderr "stderr: Line 5";
     Print stderr "stderr: Interleaved Line 1";
     Print stderr "stderr: Interleaved Line 2";
     Print stderr "stderr: Interleaved Line 3";
     Print stderr "stderr: Interleaved Line 4";
     Print stderr "stderr: Interleaved Line 5"]
    ++ map (Write stderr)
         ["s"; "t"; "d"; "e"; "r"; "r"; ":"; " ";
          "C"; "h"; "a"; "r"; "a"; "c"; "t"; "e"; "r"; " ";
          "o"; "u"; "t"; "p"; "u"; "t"; LF]
  /\ content stderr (run_events w) =
       unlines
         ["Expected: 5 lines of stderr - 2nd set";
          "stderr: Line 1";
          "stderr: Line 2";
          "stderr: Line 3";
          "stderr: Line 4";
          "stderr: Line 5";
          "stderr: Interleaved Line 1";
          "stderr: Interleaved Line 2";
          "stderr: Interleaved Line 3";
          "stderr: Interleaved Line 4";
          "stderr: Interleaved Line 5";
          "stderr: Character output"].
Proof.
  rewrite run_events_spec.
  split; vm_compute; reflexivity.
Qed.

(** * Counting lines *)

(** Reading one line: up to its line feed the text joins the line begun. *)
Lemma lines_from_line (l : string) : forall cur rest,
  no_lf l = true ->
  lines_from cur (l ++ LF ++ rest) =
    (((cur ++ l)%string :: fst (lines_from "" rest)), snd (lines_from "" rest)).
Proof.
  induction l as [|c l IH]; intros cur rest Hl.
  - cbn. rewrite append_empty_r. now destruct (lines_from "" rest).
  - cbn [no_lf] in Hl. apply andb_true_iff in Hl. destruct Hl as [Hc Hl].
    cbn [String.append lines_from].
    apply negb_true_iff in Hc. rewrite Hc.
    rewrite (IH _ rest Hl). now rewrite append_assoc.
Qed.

(** [split_lines] reads back the lines [unlines] has put together. *)
Lemma split_lines_unlines (ls : list string) :
  forallb no_lf ls = true -> split_lines (unlines ls) = (ls, "").
Proof.
  unfold split_lines, unlines.
  induction ls as [|l ls IH]; cbn [forallb map join fold_right]; intros Hls.
  - reflexivity.
  - apply andb_true_iff in Hls. destruct Hls as [Hl Hls].
    fold (join (map (fun l => (l ++ LF)%string) ls)).
    rewrite append_assoc, (lines_from_line l "" _ Hl), (IH Hls).
    reflexivity.
Qed.

(** C9. In every run standard output receives 15 newline-terminated lines
    and standard error 12, which makes 27 on the two streams: the bytes of
    each stream are that many lines free of line feeds, each closed by one,
    with nothing left over. *)
Theorem lines_per_stream (w : world) :
  line_count stdout (run_events w) = 15%nat /\
  line_count stderr (run_events w) = 12%nat /\
  (line_count stdout (run_events w) + line_count stderr (run_events w) = 27)%nat /\
  (exists ls, List.length ls = 15%nat /\ forallb no_lf ls = true /\
              content stdout (run_events w) = unlines ls) /\
  (exists ls, List.length ls = 12%nat /\ forallb no_lf ls = true /\
              content stderr (run_events w) = unlines ls).
Proof.
  rewrite run_events_spec.
  pose (out := fst (split_lines (content stdout script_trace))).
  pose (err := fst (split_lines (content stderr script_trace))).
  assert (Hout : content stdout script_trace = unlines out)
    by (vm_compute; reflexivity).
  assert (Herr : content stderr script_trace = unlines err)
    by (vm_compute; reflexivity).
  assert (Hout_lf : forallb no_lf out = true) by (vm_compute; reflexivity).
  assert (Herr_lf : forallb no_lf err = true) by (vm_compute; reflexivity).
  assert (Hn_out : line_count stdout script_trace = 15%nat).
  { unfold line_count. rewrite Hout, (split_lines_unlines out Hout_lf).
    reflexivity. }
  assert (Hn_err : line_count stderr script_trace = 12%nat).
  { unfold line_count. rewrite Herr, (split_lines_unlines err Herr_lf).
    reflexivity. }
  split; [exact Hn_out|]. split; [exact Hn_err|].
  split; [now rewrite Hn_out, Hn_err|].
  split.
  - exists out. split; [reflexivity | split; [exact Hout_lf | exact Hout]].
  - exists err. split; [reflexivity | split; [exact Herr_lf | exact Herr]].
Qed.

(** C4, as the specification words it, fails: the lines of the two streams
    of a run started from [boot] do not add up to 21, and neither do its
    [print] calls, which are 25. *)
Lemma total_lines_not_21 :
  (line_count stdout (run_events boot) + line_count stderr (run_events boot)
     <> 21)%nat /\
  List.length (filter (fun e => negb (is_write e))
                 (filter is_output (run_events boot))) <> 21%nat.
Proof.
  split; vm_compute; intros H; discriminate H.
Qed.

(** C4, amended. Every run ends with exit status 42 and puts 27 lines on the
    two streams together, 15 on standard output and 12 on standard error:
    that pair is what a harness can take as the sign of success. *)
Theorem success_signal (w : world) :
  fst (run_script w) = 42 /\
  (line_count stdout (run_events w) + line_count stderr (run_events w) = 27)%nat /\
  line_count stdout (run_events w) = 15%nat /\
  line_count stderr (run_events w) = 12%nat.
Proof.
  rewrite run_events_spec, run_script_spec.
  split; [reflexivity|].
  split; [|split]; vm_compute; reflexivity.
Qed.

(** * The third set *)

(** C5. For every [i] from 1 to 5 a run prints "stdout: Interleaved Line i"
    on standard output, at once after it "stderr: Interleaved Line i" on
    standard error, and then sleeps 100 ms, with no call in between; each of
    the two lines is printed that one time only, so the stderr line never
    comes before the stdout line of its turn. *)
Theorem interleaved_order (w : world) (i : Z) :
  1 <= i <= 5 ->
  exists before after,
    run_events w =
      before
      ++ [Print stdout ("stdout: Interleaved Line " ++ str i);
          Print stderr ("stderr: Interleaved Line " ++ str i);
          Sleep 100]
      ++ after /\
    ~ In (Print stdout ("stdout: Interleaved Line " ++ str i)) before /\
    ~ In (Print stderr ("stderr: Interleaved Line " ++ str i)) before /\
    ~ In (Print stdout ("stdout: Interleaved Line " ++ str i)) after /\
    ~ In (Print stderr ("stderr: Interleaved Line " ++ str i)) after.
Proof.
  intros Hi. rewrite run_events_spec.
  assert (Hcases : i = 1 \/ i = 2 \/ i = 3 \/ i = 4 \/ i = 5) by lia.
  exists (firstn (23 + 3 * Z.to_nat (i - 1)) script_trace).
  exists (skipn (26 + 3 * Z.to_nat (i - 1)) script_trace).
  destruct Hcases as [-> | [-> | [-> | [-> | ->]]]];
    (split; [vm_compute; reflexivity|]);
    repeat split; apply not_occurs_not_In; vm_compute; reflexivity.
Qed.

Lemma interleaved_order_witness :
  exists before after,
    run_events boot =
      before
      ++ [Print stdout ("stdout: Interleaved Line " ++ str 3);
          Print stderr ("stderr: Interleaved Line " ++ str 3);
          Sleep 100]
      ++ after /\
    ~ In (Print stdout ("stdout: Interleaved Line " ++ str 3)) before /\
    ~ In (Print stderr ("stderr: Interleaved Line " ++ str 3)) before /\
    ~ In (Print stdout ("stdout: Interleaved Line " ++ str 3)) after /\
    ~ In (Print stderr ("stderr: Interleaved Line " ++ str 3)) after.
Proof.
  apply (interleaved_order boot 3). lia.
Defined.

(** * The fourth set *)

(** C6. Each of the two strings of the fourth set has 25 characters, the
    line feed included.  A run makes, for each of the characters s, t, d, o,
    u, t, ... of "stdout: Character output\n" in turn, a [write] of that one
    character on standard output, at once a [flush] of standard output and a
    sleep of 50 ms; only then the same for each character of
    "stderr: Character output\n" on standard error.  The run has no other
    [write]: the strings it hands to [write] on each stream are 25, one
    character each, and spell the string of that stream; every [write] is
    followed at once by a [flush] of its stream, 50 flushes in all; and all
    the characters of standard output come before the first of standard
    error. *)
Theorem character_writes (w : world) :
  String.length ("stdout: Character output" ++ LF) = 25%nat /\
  String.length ("stderr: Character output" ++ LF) = 25%nat /\
  List.length (written stdout (run_events w)) = 25%nat /\
  List.length (written stderr (run_events w)) = 25%nat /\
  Forall (fun c => String.length c = 1%nat)
    (written stdout (run_events w) ++ written stderr (run_events w)) /\
  join (written stdout (run_events w)) =
    ("stdout: Character output" ++ LF)%string /\
  join (written stderr (run_events w)) =
    ("stderr: Character output" ++ LF)%string /\
  flushed_char_writes (run_events w) = true /\
  filter is_flush (run_events w) =
    repeat (Flush stdout) 25 ++ repeat (Flush stderr) 25 /\
  exists before after,
    run_events w =
      before
      ++ flat_map (fun c => [Write stdout c; Flush stdout; Sleep 50])
           ["s"; "t"; "d"; "o"; "u"; "t"; ":"; " ";
            "C"; "h"; "a"; "r"; "a"; "c"; "t"; "e"; "r"; " ";
            "o"; "u"; "t"; "p"; "u"; "t"; LF]
      ++ flat_map (fun c => [Write stderr c; Flush stderr; Sleep 50])
           ["s"; "t"; "d"; "e"; "r"; "r"; ":"; " ";
            "C"; "h"; "a"; "r"; "a"; "c"; "t"; "e"; "r"; " ";
            "o"; "u"; "t"; "p"; "u"; "t"; LF]
      ++ after /\
    filter is_write before = [] /\
    filter is_write after = [].
Proof.
  rewrite run_events_spec.
  split; [reflexivity|]. split; [reflexivity|].
  split; [vm_compute; reflexivity|]. split; [vm_compute; reflexivity|].
  split.
  { apply Forall_forall. intros c Hin.
    assert (Hall : forallb (fun c => Nat.eqb (String.length c) 1)
                     (written stdout script_trace
                      ++ written stderr script_trace) = true)
      by (vm_compute; reflexivity).
    rewrite forallb_forall in Hall. apply Nat.eqb_eq. exact (Hall c Hin). }
  split; [vm_compute; reflexivity|]. split; [vm_compute; reflexivity|].
  split; [vm_compute; reflexivity|]. split; [vm_compute; reflexivity|].
  exists (firstn 39 script_trace), [Print stdout "Exiting with code 42"].
  split; [|split]; vm_compute; reflexivity.
Qed.

(** * Two runs *)

(** C7. Any two runs, whatever arguments, environment, input and earlier log
    they are started with, leave with the same exit status and make the same
    calls, so each stream receives the same bytes; a run only adds its calls
    to the log and leaves the rest of the world as it found it. *)
Theorem runs_agree (w1 w2 : world) :
  fst (run_script w1) = fst (run_script w2) /\
  run_events w1 = run_events w2 /\
  content stdout (run_events w1) = content stdout (run_events w2) /\
  content stderr (run_events w1) = content stderr (run_events w2) /\
  trace (snd (run_script w1)) = trace w1 ++ run_events w1 /\
  argv (snd (run_script w1)) = argv w1 /\
  environ (snd (run_script w1)) = environ w1 /\
  stdin (snd (run_script w1)) = stdin w1.
Proof.
  rewrite !trace_run_script, !run_events_spec, !run_script_spec.
  repeat split; reflexivity.
Qed.

(** * Character by character, or in one piece *)

(** The calls of a loop of the fourth set put on any stream what one [write]
    of the whole string puts there. *)
Lemma content_char_calls (f g : stream) (s : string) :
  content g (flat_map (fun c => [Write f c; Flush f; Sleep 50]) (chars s)) =
  content g [Write f s].
Proof.
  unfold content. cbn [map text_on join fold_right].
  rewrite append_empty_r.
  induction s as [|c s IH]; cbn [chars flat_map app map text_on].
  - cbn. now destruct (stream_eqb g f).
  - cbn [join fold_right]. fold (join (map (text_on g)
      (flat_map (fun c => [Write f c; Flush f; Sleep 50]) (chars s)))).
    rewrite IH. destruct (stream_eqb g f); reflexivity.
Qed.

Lemma written_char_calls (f : stream) (cs : list string) :
  written f (flat_map (fun c => [Write f c; Flush f; Sleep 50]) cs) = cs.
Proof.
  unfold written.
  induction cs as [|c cs IH]; cbn [flat_map app]; [reflexivity|].
  replace (stream_eqb f f) with true by (now destruct f).
  cbn [app]. now rewrite IH.
Qed.

Lemma main_one_write_emits :
  emits main_one_write (new_events main_one_write boot)
        (Raise (SystemExit 42)).
Proof. intros w. vm_compute. reflexivity. Qed.

(** C10. Put end to end, the strings a run hands to [write] on standard
    output are "stdout: Character output\n" and those on standard error are
    "stderr: Character output\n"; each stream receives from the script what
    it receives from the script that writes each of the two strings in one
    [write]; and for any string and any stream the loop hands over, piece by
    piece, that string and puts on every stream what one [write] of it puts
    there. *)
Theorem char_by_char_is_one_write (w : world) :
  join (written stdout (run_events w)) = ("stdout: Character output" ++ LF)%string /\
  join (written stderr (run_events w)) = ("stderr: Character output" ++ LF)%string /\
  (forall f : stream,
     content f (run_events w) = content f (new_events main_one_write w)) /\
  (forall (s : string) (f g : stream) (w' : world),
     join (written f (new_events
                        (for_each (chars s)
                           (fun char => write f char ;; flush f ;; sleep 50))
                        w')) = s /\
     content g (new_events
                  (for_each (chars s)
                     (fun char => write f char ;; flush f ;; sleep 50)) w') =
     content g (new_events (write f s) w')).
Proof.
  rewrite run_events_spec.
  split; [vm_compute; reflexivity|].
  split; [vm_compute; reflexivity|].
  split.
  - intros f.
    rewrite (new_events_emits _ _ _ w main_one_write_emits).
    destruct f; vm_compute; reflexivity.
  - intros s f g w'.
    rewrite (new_events_emits _ _ _ w' (emits_char_loop f s)).
    rewrite (new_events_emits _ _ _ w' (emits_write f s)).
    split.
    + rewrite written_char_calls. apply join_chars.
    + apply content_char_calls.
Qed.

(** * Progress through the phases *)

Lemma earlier_trans (a b c : Sequencer.point) :
  Sequencer.earlier a b -> Sequencer.earlier b c -> Sequencer.earlier a c.
Proof. unfold Sequencer.earlier. lia. Qed.

Lemma earlier_irrefl (a : Sequencer.point) : ~ Sequencer.earlier a a.
Proof. unfold Sequencer.earlier. lia. Qed.

Lemma next_turn_earlier (loop : Z -> Sequencer.point) i stop done :
  Sequencer.earlier (loop i) (loop (i + 1)) ->
  Sequencer.earlier (loop i) done ->
  Sequencer.earlier (loop i) (Sequencer.next_turn loop i stop done).
Proof.
  intros Hloop Hdone. unfold Sequencer.next_turn.
  now destruct (Z.ltb (i + 1) stop).
Qed.

Lemma char_turn_earlier file s (loop : nat -> Sequencer.point) k done evs next :
  Sequencer.earlier (loop k) (loop (S k)) ->
  Sequencer.earlier (loop k) done ->
  Sequencer.char_turn file s loop k done = Sequencer.Goes evs next ->
  Sequencer.earlier (loop k) next.
Proof.
  intros Hloop Hdone. unfold Sequencer.char_turn.
  destruct (nth_error (chars s) k);
    [destruct (Nat.ltb (S k) (String.length s))|];
    intros [= _ <-]; assumption.
Qed.

(** A step leads to a strictly later point. *)
Lemma step_earlier (pt : Sequencer.point) evs next :
  Sequencer.step pt = Sequencer.Goes evs next -> Sequencer.earlier pt next.
Proof.
  destruct pt; cbn [Sequencer.step];
    try (intros [= _ <-]; try apply next_turn_earlier;
         unfold Sequencer.earlier; cbn; lia);
    try discriminate.
  - apply char_turn_earlier; unfold Sequencer.earlier; cbn; lia.
  - apply char_turn_earlier; unfold Sequencer.earlier; cbn; lia.
Qed.

Lemma path_later fuel : forall pt q,
  In q (Sequencer.path fuel pt) -> q = pt \/ Sequencer.earlier pt q.
Proof.
  induction fuel as [|fuel IH]; intros pt q; cbn [Sequencer.path].
  - intros [].
  - intros [<- | Hin]; [now left|]. right.
    destruct (Sequencer.step pt) as [evs next|code] eqn:Hstep; [|destruct Hin].
    apply step_earlier in Hstep.
    destruct (IH next q Hin) as [-> | Hlater]; [assumption|].
    eapply earlier_trans; eassumption.
Qed.

Lemma path_sorted fuel : forall pt,
  StronglySorted Sequencer.earlier (Sequencer.path fuel pt).
Proof.
  induction fuel as [|fuel IH]; intros pt; cbn [Sequencer.path].
  - constructor.
  - destruct (Sequencer.step pt) as [evs next|code] eqn:Hstep.
    + constructor; [apply IH|].
      apply Forall_forall. intros q Hin.
      apply step_earlier in Hstep.
      destruct (path_later fuel next q Hin) as [-> | Hlater]; [assumption|].
      eapply earlier_trans; eassumption.
    + repeat constructor.
Qed.

Lemma sorted_NoDup (pts : list Sequencer.point) :
  StronglySorted Sequencer.earlier pts -> NoDup pts.
Proof.
  induction 1 as [|pt pts Hsorted IH Hall]; constructor; [|assumption].
  intros Hin. rewrite Forall_forall in Hall.
  exact (earlier_irrefl pt (Hall pt Hin)).
Qed.

(** Fuel beyond what a run needs changes nothing. *)
Lemma run_more_fuel fuel : forall pt evs code extra,
  Sequencer.run fuel pt = (evs, Some code) ->
  Sequencer.run (fuel + extra) pt = (evs, Some code).
Proof.
  induction fuel as [|fuel IH]; intros pt evs code extra;
    cbn [Sequencer.run Nat.add].
  - discriminate.
  - destruct (Sequencer.step pt) as [e next|c]; [|now intros]. 
    destruct (Sequencer.run fuel next) as [rest status] eqn:Hrun.
    intros [= <- ->]. now rewrite (IH next rest code extra Hrun).
Qed.

(** C8. The script is the machine of control points started at the first
    header: with 71 steps of fuel or more the machine makes the calls of a run
    and exits with 42.  Every step of the machine leads to a strictly later
    point (a later phase, or a later part of the same phase, or the same loop
    at a larger counter), so along the path of a run every point is earlier
    than all that follow and none is visited twice; the phases entered are 1,
    2, 3, 4 and the exit, in that order; and the machine stops nowhere but at
    [sys.exit(42)], the last point of the path. *)
Theorem monotone_progress (w : world) :
  (forall fuel, (71 <= fuel)%nat ->
     Sequencer.run fuel Sequencer.Header1 = (run_events w, Some 42)) /\
  (forall pt evs next,
     Sequencer.step pt = Sequencer.Goes evs next ->
     Sequencer.earlier pt next /\ Sequencer.phase pt <= Sequencer.phase next) /\
  StronglySorted Sequencer.earlier (Sequencer.path 71 Sequencer.Header1) /\
  NoDup (Sequencer.path 71 Sequencer.Header1) /\
  Sequencer.phases_entered 0 (Sequencer.path 71 Sequencer.Header1) =
    [1; 2; 3; 4; 5] /\
  (forall pt code,
     Sequencer.step pt = Sequencer.Exits code ->
     pt = Sequencer.Leave /\ code = 42) /\
  last (Sequencer.path 71 Sequencer.Header1) Sequencer.Header1 =
    Sequencer.Leave.
Proof.
  split; [|split; [|split; [|split; [|split; [|split]]]]].
  - intros fuel Hfuel. rewrite run_events_spec.
    replace fuel with (71 + (fuel - 71))%nat by lia.
    apply run_more_fuel. vm_compute. reflexivity.
  - intros pt evs next Hstep. apply step_earlier in Hstep.
    split; [exact Hstep|]. unfold Sequencer.earlier in Hstep. lia.
  - apply path_sorted.
  - apply sorted_NoDup, path_sorted.
  - vm_compute. reflexivity.
  - intros pt code Hstep.
    destruct pt; cbn [Sequencer.step] in Hstep; try discriminate Hstep.
    + unfold Sequencer.char_turn in Hstep.
      destruct (nth_error _ k); discriminate Hstep.
    + unfold Sequencer.char_turn in Hstep.
      destruct (nth_error _ k); discriminate Hstep.
    + injection Hstep as <-. now split.
  - vm_compute. reflexivity.
Qed.

(** * The time a run takes *)

(** X2. A run sleeps 65 times, 5000 ms in all.  The header of the second
    set is printed after 1000 ms of sleep, that of the third after 2000 ms,
    that of the fourth after 2500 ms, the first character goes to standard
    error after 3750 ms, and the final line is printed after all 5000 ms. *)
Theorem sleep_budget (w : world) :
  slept (run_events w) = 5000 /\
  List.length (filter is_sleep (run_events w)) = 65%nat /\
  (exists pre post,
     run_events w =
       pre ++ Print stderr "Expected: 5 lines of stderr - 2nd set" :: post /\
     slept pre = 1000) /\
  (exists pre post,
     run_events w =
       pre ++ Print stdout
                "Expected: 5 interleaved lines of stdout and stderr - 3rd set"
           :: post /\
     slept pre = 2000) /\
  (exists pre post,
     run_events w =
       pre ++ Print stdout
                "Expected: Character by character output with pauses - 4th set"
           :: post /\
     slept pre = 2500) /\
  (exists pre post,
     run_events w = pre ++ Write stderr "s" :: post /\
     written stderr pre = [] /\
     slept pre = 3750) /\
  (exists pre,
     run_events w = pre ++ [Print stdout "Exiting with code 42"] /\
     slept pre = 5000).
Proof.
  rewrite run_events_spec.
  split; [vm_compute; reflexivity|].
  split; [vm_compute; reflexivity|].
  split; [exists (firstn 11 script_trace), (skipn 12 script_trace);
          split; vm_compute; reflexivity|].
  split; [exists (firstn 22 script_trace), (skipn 23 script_trace);
          split; vm_compute; reflexivity|].
  split; [exists (firstn 38 script_trace), (skipn 39 script_trace);
          split; vm_compute; reflexivity|].
  split; [exists (firstn 114 script_trace), (skipn 115 script_trace);
          split; [|split]; vm_compute; reflexivity|].
  exists (removelast script_trace). split; vm_compute; reflexivity.
Qed.

(** * What a reader has received, turn by turn *)

Lemma length_chars (s : string) : List.length (chars s) = String.length s.
Proof. induction s as [|c s IH]; cbn; [reflexivity | now rewrite IH]. Qed.

Lemma firstn_chars (s : string) : forall k,
  firstn k (chars s) = chars (substring 0 k s).
Proof.
  induction s as [|c s IH]; intros [|k]; cbn; try reflexivity.
  now rewrite IH.
Qed.

Lemma length_char_calls (f : stream) (cs : list string) :
  List.length (flat_map (fun c => [Write f c; Flush f; Sleep 50]) cs) =
  (3 * List.length cs)%nat.
Proof.
  induction cs as [|c cs IH]; cbn [flat_map app List.length]; [reflexivity|].
  rewrite IH. lia.
Qed.

Lemma slept_char_calls (f : stream) (cs : list string) :
  slept (flat_map (fun c => [Write f c; Flush f; Sleep 50]) cs) =
  50 * Z.of_nat (List.length cs).
Proof.
  induction cs as [|c cs IH]; [reflexivity|].
  cbn [flat_map app List.length]. unfold slept in *. cbn [fold_right].
  rewrite IH. lia.
Qed.

Lemma content_char_calls_own (f : stream) (cs : list string) :
  content f (flat_map (fun c => [Write f c; Flush f; Sleep 50]) cs) = join cs.
Proof.
  unfold content.
  induction cs as [|c cs IH]; [reflexivity|].
  cbn [flat_map app map text_on join fold_right].
  replace (stream_eqb f f) with true by (now destruct f).
  fold (join (map (text_on f)
    (flat_map (fun c => [Write f c; Flush f; Sleep 50]) cs))).
  rewrite IH. reflexivity.
Qed.

(** X3. A loop of the fourth set, over any string [s] and on any stream
    [f]: after [k] of its turns it has made [3 * k] calls, has handed the
    first [k] characters of [s] to [f.write] one by one, [f] holds exactly
    those characters, and 50 ms were slept per turn. *)
Theorem char_loop_delivers (f : stream) (s : string) (k : nat) (w : world) :
  (k <= String.length s)%nat ->
  exists pre post,
    new_events (for_each (chars s)
                  (fun char => write f char ;; flush f ;; sleep 50)) w =
      pre ++ post /\
    List.length pre = (3 * k)%nat /\
    written f pre = chars (substring 0 k s) /\
    content f pre = substring 0 k s /\
    slept pre = 50 * Z.of_nat k.
Proof.
  intros Hk.
  rewrite (new_events_emits _ _ _ w (emits_char_loop f s)).
  exists (flat_map (fun c => [Write f c; Flush f; Sleep 50])
            (firstn k (chars s))).
  exists (flat_map (fun c => [Write f c; Flush f; Sleep 50])
            (skipn k (chars s))).
  assert (Hlen : List.length (firstn k (chars s)) = k).
  { apply firstn_length_le. now rewrite length_chars. }
  split; [now rewrite <- flat_map_app, firstn_skipn|].
  split; [now rewrite length_char_calls, Hlen|].
  split; [now rewrite written_char_calls, firstn_chars|].
  split.
  - now rewrite content_char_calls_own, firstn_chars, join_chars.
  - now rewrite slept_char_calls, Hlen.
Qed.

Lemma char_loop_delivers_witness :
  exists pre post,
    new_events (for_each (chars "stderr")
                  (fun char => write stderr char ;; flush stderr ;; sleep 50))
      boot = pre ++ post /\
    List.length pre = (3 * 2)%nat /\
    written stderr pre = chars (substring 0 2 "stderr") /\
    content stderr pre = substring 0 2 "stderr" /\
    slept pre = 50 * Z.of_nat 2.
Proof.
  apply (char_loop_delivers stderr "stderr" 2 boot). cbn. lia.
Defined.

(** X4. In a run, for every [k] from 1 to 25, at the [k]-th flush of
    standard output that stream holds its thirteen earlier lines and the
    first [k] characters of "stdout: Character output\n", no more; standard
    error holds the eleven lines of the second and third sets and nothing of
    its own fourth-set string yet. *)
Theorem stdout_grows_by_one_character (w : world) (k : nat) :
  (1 <= k <= 25)%nat ->
  exists pre post,
    run_events w = pre ++ Flush stdout :: post /\
    List.length (filter is_flush pre) = (k - 1)%nat /\
    content stdout pre =
      (unlines
         ["Expected: 5 lines of stdout - 1st set";
          "stdout: Line 1";
          "stdout: Line 2";
          "stdout: Line 3";
          "stdout: Line 4";
          "stdout: Line 5";
          "Expected: 5 interleaved lines of stdout and stderr - 3rd set";
          "stdout: Interleaved Line 1";
          "stdout: Interleaved Line 2";
          "stdout: Interleaved Line 3";
          "stdout: Interleaved Line 4";
          "stdout: Interleaved Line 5";
          "Expected: Character by character output with pauses - 4th set"]
       ++ substring 0 k ("stdout: Character output" ++ LF))%string /\
    content stderr pre =
      unlines
        ["Expected: 5 lines of stderr - 2nd set";
         "stderr: Line 1";
         "stderr: Line 2";
         "stderr: Line 3";
         "stderr: Line 4";
         "stderr: Line 5";
         "stderr: Interleaved Line 1";
         "stderr: Interleaved Line 2";
         "stderr: Interleaved Line 3";
         "stderr: Interleaved Line 4";
         "stderr: Interleaved Line 5"].
Proof.
  intros Hk. rewrite run_events_spec.
  exists (firstn (37 + 3 * k) script_trace).
  exists (skipn (38 + 3 * k) script_trace).
  destruct k as [|k]; [lia|].
  do 25 (destruct k as [|k];
         [repeat split; vm_compute; reflexivity|]).
  lia.
Qed.

Lemma stdout_grows_by_one_character_witness :
  exists pre post,
    run_events boot = pre ++ Flush stdout :: post /\
    List.length (filter is_flush pre) = (7 - 1)%nat /\
    content stdout pre =
      (unlines
         ["Expected: 5 lines of stdout - 1st set";
          "stdout: Line 1";
          "stdout: Line 2";
          "stdout: Line 3";
          "stdout: Line 4";
          "stdout: Line 5";
          "Expected: 5 interleaved lines of stdout and stderr - 3rd set";
          "stdout: Interleaved Line 1";
          "stdout: Interleaved Line 2";
          "stdout: Interleaved Line 3";
          "stdout: Interleaved Line 4";
          "stdout: Interleaved Line 5";
          "Expected: Character by character output with pauses - 4th set"]
       ++ substring 0 7 ("stdout: Character output" ++ LF))%string /\
    content stderr pre =
      unlines
        ["Expected: 5 lines of stderr - 2nd set";
         "stderr: Line 1";
         "stderr: Line 2";
         "stderr: Line 3";
         "stderr: Line 4";
         "stderr: Line 5";
         "stderr: Interleaved Line 1";
         "stderr: Interleaved Line 2";
         "stderr: Interleaved Line 3";
         "stderr: Interleaved Line 4";
         "stderr: Interleaved Line 5"].
Proof.
  apply (stdout_grows_by_one_character boot 7). lia.
Defined.

(** * Telling the lines apart *)

Lemma to_int_not_nil (z : Z) :
  Z.to_int z <> Decimal.Pos Decimal.Nil /\
  Z.to_int z <> Decimal.Neg Decimal.Nil.
Proof.
  destruct z as [|p|p]; cbn [Z.to_int]; split; try discriminate;
    intros [= H]; exact (DecimalPos.Unsigned.to_uint_nonnil p H).
Qed.

(** [str] renders different integers differently. *)
Lemma str_inj (i j : Z) : str i = str j -> i = j.
Proof.
  unfold str. intros H.
  apply (f_equal NilZero.int_of_string) in H.
  destruct (to_int_not_nil i) as [Hi1 Hi2].
  destruct (to_int_not_nil j) as [Hj1 Hj2].
  rewrite !NilZero.isi in H by assumption.
  injection H as H. now apply DecimalZ.to_int_inj.
Qed.

(** X5. Whatever the integers, two turns of a loop with different counters
    print different lines: each of the four line formats of the script
    determines its counter. *)
Theorem counters_tell_lines_apart (i j : Z) :
  i <> j ->
  ("stdout: Line " ++ str i)%string <> ("stdout: Line " ++ str j)%string /\
  ("stderr: Line " ++ str i)%string <> ("stderr: Line " ++ str j)%string /\
  ("stdout: Interleaved Line " ++ str i)%string <>
    ("stdout: Interleaved Line " ++ str j)%string /\
  ("stderr: Interleaved Line " ++ str i)%string <>
    ("stderr: Interleaved Line " ++ str j)%string.
Proof.
  intros Hij.
  repeat split; intros H; cbn [String.append] in H;
    injection H as H; apply Hij, str_inj, H.
Qed.

Lemma counters_tell_lines_apart_witness :
  ("stdout: Line " ++ str 1)%string <> ("stdout: Line " ++ str 10)%string /\
  ("stderr: Line " ++ str 1)%string <> ("stderr: Line " ++ str 10)%string /\
  ("stdout: Interleaved Line " ++ str 1)%string <>
    ("stdout: Interleaved Line " ++ str 10)%string /\
  ("stderr: Interleaved Line " ++ str 1)%string <>
    ("stderr: Interleaved Line " ++ str 10)%string.
Proof.
  apply (counters_tell_lines_apart 1 10). lia.
Defined.

Lemma distinct_NoDup (ss : list string) : distinct ss = true -> NoDup ss.
Proof.
  induction ss as [|s ss IH]; cbn [distinct]; intros H; constructor;
    apply andb_true_iff in H; destruct H as [Hs Hss].
  - intros Hin. apply negb_true_iff in Hs.
    assert (Hex : existsb (String.eqb s) ss = true)
      by (apply existsb_exists; exists s; split;
          [exact Hin | apply String.eqb_refl]).
    congruence.
  - exact (IH Hss).
Qed.

(** X6. The 27 lines a run puts on the two streams are pairwise different.
    Every line on standard output begins with "stdout: " or "Expected: " or
    is the final line; every line on standard error begins with "stderr: "
    or "Expected: ": no line carries the label of the other stream. *)
Theorem lines_are_labelled (w : world) :
  NoDup (lines_on stdout (run_events w) ++ lines_on stderr (run_events w)) /\
  Forall (fun l => prefix "stdout: " l = true \/
                   prefix "Expected: " l = true \/
                   l = "Exiting with code 42")
         (lines_on stdout (run_events w)) /\
  Forall (fun l => prefix "stderr: " l = true \/
                   prefix "Expected: " l = true)
         (lines_on stderr (run_events w)).
Proof.
  rewrite run_events_spec. split; [|split].
  - apply distinct_NoDup. vm_compute. reflexivity.
  - apply Forall_forall. intros l Hin.
    assert (Hall : forallb (fun l => prefix "stdout: " l
                                     || prefix "Expected: " l
                                     || String.eqb l "Exiting with code 42")
                     (lines_on stdout script_trace) = true)
      by (vm_compute; reflexivity).
    rewrite forallb_forall in Hall. specialize (Hall l Hin).
    rewrite !orb_true_iff, String.eqb_eq in Hall. tauto.
  - apply Forall_forall. intros l Hin.
    assert (Hall : forallb (fun l => prefix "stderr: " l
                                     || prefix "Expected: " l)
                     (lines_on stderr script_trace) = true)
      by (vm_compute; reflexivity).
    rewrite forallb_forall in Hall. specialize (Hall l Hin).
    rewrite orb_true_iff in Hall. exact Hall.
Qed.

(** * The order of the calls across the two streams *)

(** X7. The output calls of a run, taken in the order the process makes
    them, go to: standard output six times, standard error six times,
    standard output once, then five times standard output and standard error
    in turn, standard output 26 times, standard error 25 times, and standard
    output for the final line. *)
Theorem streams_take_turns (w : world) :
  map file_of (filter is_output (run_events w)) =
    repeat (Some stdout) 6
    ++ repeat (Some stderr) 6
    ++ [Some stdout]
    ++ List.concat (repeat [Some stdout; Some stderr] 5)
    ++ repeat (Some stdout) 26
    ++ repeat (Some stderr) 25
    ++ [Some stdout].
Proof. rewrite run_events_spec. vm_compute. reflexivity. Qed.

(** X8. A run flushes 50 times, 25 times standard output and then 25 times
    standard error.  Up to the header of the fourth set it only prints and
    sleeps, with no [write] and no [flush]; after that header its one [print]
    is the final line. *)
Theorem flushes_only_in_fourth_set (w : world) :
  filter is_flush (run_events w) =
    repeat (Flush stdout) 25 ++ repeat (Flush stderr) 25 /\
  exists pre post,
    run_events w =
      pre ++ Print stdout
               "Expected: Character by character output with pauses - 4th set"
          :: post /\
    filter (fun e => is_flush e || is_write e) pre = [] /\
    List.length (filter is_print pre) = 23%nat /\
    filter is_print post = [Print stdout "Exiting with code 42"].
Proof.
  rewrite run_events_spec.
  split; [vm_compute; reflexivity|].
  exists (firstn 38 script_trace), (skipn 39 script_trace).
  repeat split; vm_compute; reflexivity.
Qed.

(** * The ranges the loops run over *)

Lemma sorted_map_seq (start : Z) (n : nat) : forall s,
  StronglySorted Z.lt (map (fun k => start + Z.of_nat k) (seq s n)).
Proof.
  induction n as [|n IH]; intros s; cbn [seq map]; constructor.
  - apply IH.
  - apply Forall_forall. intros x Hin.
    apply in_map_iff in Hin. destruct Hin as [k [<- Hk]].
    apply in_seq in Hk. lia.
Qed.

(** X9. [range(start, stop)] holds exactly the integers from [start] up to
    but not including [stop], in increasing order; it has [stop - start]
    elements, and none when [stop] does not exceed [start], in which case a
    loop over it makes no call. *)
Theorem range_spec (start stop : Z) :
  (forall i, In i (range start stop) <-> start <= i < stop) /\
  StronglySorted Z.lt (range start stop) /\
  Z.of_nat (List.length (range start stop)) = Z.max 0 (stop - start) /\
  (stop <= start ->
   forall (body : Z -> M unit) (w : world),
     for_each (range start stop) body w = (Ret tt, w)).
Proof.
  unfold range. split; [|split; [|split]].
  - intros i. rewrite in_map_iff. split.
    + intros [k [<- Hk]]. apply in_seq in Hk. lia.
    + intros Hi. exists (Z.to_nat (i - start)). split; [lia|].
      apply in_seq. lia.
  - apply sorted_map_seq.
  - rewrite length_map, length_seq. lia.
  - intros Hle body w.
    replace (Z.to_nat (stop - start)) with 0%nat by lia. reflexivity.
Qed.

(** * Calling [main] from other code *)

(** X10. [main] never returns to its caller: in any world it ends by
    raising [SystemExit] with code 42, so whatever a caller has put after the
    call is not run and adds nothing to the log. *)
Theorem main_never_returns {A : Type} (k : unit -> M A) (w : world) :
  fst (main w) = Raise (SystemExit 42) /\
  (_ <- main ;; k tt) w = (Raise (SystemExit 42), snd (main w)) /\
  new_events (_ <- main ;; k tt) w = new_events main w.
Proof.
  assert (Hbind : (_ <- main ;; k tt) w = (Raise (SystemExit 42), snd (main w))).
  { unfold bind. rewrite main_emits. reflexivity. }
  split; [now rewrite main_emits|].
  split; [exact Hbind|].
  unfold new_events. now rewrite Hbind.
Qed.
